(** * contenthandler: the upload, feed and delete handlers of app/app.py

    A shallow embedding of the three request handlers of [app/app.py]
    ([create_post], [get_feeds], [delete_post_by_id]) and of the secrets
    configured in [app/users.py].  Python's exceptions and the
    [try]/[except]/[finally] blocks are modelled by a small state and
    exception monad; the relational table of posts is a finite map keyed by
    the primary key, the local disk a finite set of paths. *)

From stdpp Require Import base option list strings gmap sets pretty sorting.
From Stdlib Require Import ZArith Ascii Sorting.

Open Scope string_scope.
Open Scope Z_scope.

(** ** Python exceptions and control flow *)

Module Py.

(** The exceptions a handler can meet.  Both constructors are subclasses of
    Python's [Exception]: [HTTPException] is FastAPI's (it derives from
    Starlette's, which derives from [Exception]); [PyError cls msg] is any
    other exception, of class [cls] and with message [msg]. *)
Inductive exn : Type :=
  | HTTPException (status_code : Z) (detail : string)
  | PyError (cls : string) (msg : string).

(** [str(e)]: Starlette's [HTTPException.__str__] prints the status code and
    the detail; an ordinary exception prints its message. *)
Definition str (e : exn) : string :=
  match e with
  | HTTPException status_code detail => pretty status_code +:+ ": " +:+ detail
  | PyError _ msg => msg
  end.

(** How a block of statements ends: with a value, or with a raised
    exception. *)
Inductive outcome (A : Type) : Type :=
  | Return (a : A)
  | Raise (e : exn).
Arguments Return {A} a.
Arguments Raise {A} e.

(** A computation over a mutable state [S]. *)
Definition M (S A : Type) : Type := S -> outcome A * S.

Definition ret {S A} (a : A) : M S A := fun s => (Return a, s).

Definition raise {S A} (e : exn) : M S A := fun s => (Raise e, s).

Definition bind {S A B} (m : M S A) (k : A -> M S B) : M S B :=
  fun s =>
    match m s with
    | (Return a, s') => k a s'
    | (Raise e, s') => (Raise e, s')
    end.

(** A library call whose outcome the environment decides. *)
Definition call {S A} (o : outcome A) : M S A := fun s => (o, s).

(** A library call that returns nothing and may raise. *)
Definition may_raise {S} (err : option exn) : M S unit :=
  match err with
  | Some e => raise e
  | None => ret tt
  end.

Definition get {S} : M S S := fun s => (Return s, s).

Definition modify {S} (f : S -> S) : M S unit := fun s => (Return tt, f s).

(** [try: body  except Exception as e: handler(e)]. *)
Definition try_except {S A} (body : M S A) (handler : exn -> M S A) : M S A :=
  fun s =>
    match body s with
    | (Return a, s') => (Return a, s')
    | (Raise e, s') => handler e s'
    end.

(** [try: body  finally: cleanup].  The cleanup runs on every exit of the
    body; an exception raised by the cleanup replaces the body's outcome. *)
Definition try_finally {S A} (body : M S A) (cleanup : M S unit) : M S A :=
  fun s =>
    match body s with
    | (o, s') =>
        match cleanup s' with
        | (Return _, s'') => (o, s'')
        | (Raise e, s'') => (Raise e, s'')
        end
    end.

(** Run a computation on a component of a larger state. *)
Definition zoom {S T A} (proj : T -> S) (inj : S -> T -> T) (m : M S A) : M T A :=
  fun t =>
    match m (proj t) with
    | (o, s') => (o, inj s' t)
    end.

End Py.

Import Py.

Notation "'do' x <- m ; k" := (bind m (fun x => k))
  (at level 10, x name, m at level 100, k at level 200).
Notation "m ;; k" := (bind m (fun _ => k))
  (at level 100, k at level 200, right associativity).

(** ** Data model *)

(** A [uuid.UUID], compared (as Python does) through its 128-bit integer. *)
Abbreviation UUID := N (only parsing).

(** Modelled from the spec: the [User] table of app/db.py, which is not part
    of the sources; the handlers read [user.id] and [user.email]. *)
Record User : Type := {
  user_ident : UUID;
  email : string
}.

(** Modelled from the spec: the [Post] table of app/db.py, which is not part
    of the sources; the columns are the ones [get_feeds] reads. *)
Record Post : Type := {
  id : UUID;
  user_id : UUID;
  caption : string;
  url : string;
  file_type : string;
  file_name : string;
  created_at : Z;
  updated_at : Z
}.

(** The keyword arguments of the [Post(...)] constructor call in
    [create_post]; the identifier and the timestamps are column defaults. *)
Record NewPost : Type := {
  new_user_id : UUID;
  new_caption : string;
  new_url : string;
  new_file_type : string;
  new_file_name : string
}.

(** Modelled from the spec: the column defaults of app/db.py (a generated
    unique identifier, creation and update timestamps), applied when the row
    is inserted. *)
Definition flush (new_id : UUID) (now : Z) (p : NewPost) : Post :=
  {| id := new_id;
     user_id := new_user_id p;
     caption := new_caption p;
     url := new_url p;
     file_type := new_file_type p;
     file_name := new_file_name p;
     created_at := now;
     updated_at := now |}.

(** *** Textual form of identifiers *)

Definition hex_digit (d : N) : ascii :=
  default "0"%char (String.get (N.to_nat d) "0123456789abcdef").

(** The [digits] lowest hexadecimal digits of [v], most significant first
    (['%032x' % v] for [digits = 32]). *)
Fixpoint hex (digits : nat) (v : N) : string :=
  match digits with
  | O => ""
  | S k => hex k (v / 16)%N +:+ String (hex_digit (v mod 16)%N) ""
  end.

(** [str(u)] for a [uuid.UUID]: 8-4-4-4-12 hexadecimal digits. *)
Definition str_uuid (u : UUID) : string :=
  let h := hex 32 u in
  String.substring 0 8 h +:+ "-" +:+ String.substring 8 4 h
    +:+ "-" +:+ String.substring 12 4 h +:+ "-" +:+ String.substring 16 4 h
    +:+ "-" +:+ String.substring 20 12 h.

(** ** The database session *)

(** An [AsyncSession]: the table of posts it reads and writes (keyed by the
    primary key), and the changes registered with [add] and [delete] that the
    next [commit] applies. *)
Record Session : Type := {
  posts : gmap N Post;
  added : option NewPost;
  deleted : list N
}.

(** What the database does during one request: the defaults it generates for
    an inserted row, and the failures of its round trips. *)
Record DbEnv : Type := {
  db_new_id : UUID;
  db_now : Z;
  db_execute : option exn;
  db_commit : option exn;
  db_refresh : option exn
}.

Definition open_session (table : gmap N Post) : Session :=
  {| posts := table; added := None; deleted := [] |}.

(** [session.add(post)]. *)
Definition session_add (p : NewPost) : M Session unit :=
  modify (fun s => {| posts := posts s; added := Some p; deleted := deleted s |}).

(** [session.delete(post)]. *)
Definition session_delete (p : Post) : M Session unit :=
  modify (fun s => {| posts := posts s; added := added s; deleted := id p :: deleted s |}).

Definition delete_all (ks : list N) (table : gmap N Post) : gmap N Post :=
  foldr delete table ks.

(** [session.commit()]: a failing commit writes nothing; otherwise the
    registered deletions and the registered insertion reach the table.  The
    primary key is unique: inserting an identifier already present fails. *)
Definition session_commit (env : DbEnv) : M Session unit :=
  fun s =>
    match db_commit env with
    | Some e => (Raise e, open_session (posts s))
    | None =>
        let table := delete_all (deleted s) (posts s) in
        match added s with
        | None => (Return tt, open_session table)
        | Some p =>
            match table !! db_new_id env with
            | Some _ =>
                (Raise (PyError "IntegrityError" "UNIQUE constraint failed: post.id"),
                 open_session (posts s))
            | None =>
                (Return tt,
                 open_session (<[db_new_id env := flush (db_new_id env) (db_now env) p]> table))
            end
        end
    end.

(** [session.refresh(post)] for the row the commit inserted. *)
Definition session_refresh (env : DbEnv) : M Session Post :=
  may_raise (db_refresh env);;
  do s <- get;
  match posts s !! db_new_id env with
  | Some row => ret row
  | None => raise (PyError "InvalidRequestError" "Could not refresh instance")
  end.

(** [select(Post).where(Post.id == post_id)] with [scalar_one_or_none()]. *)
Definition select_post_by_id (env : DbEnv) (post_id : UUID) : M Session (option Post) :=
  may_raise (db_execute env);;
  do s <- get;
  ret (posts s !! post_id).

(** *** ORDER BY created_at DESC *)

(** [newer_first p q]: [p] may precede [q] in a listing by creation time
    descending. *)
Definition newer_first (p q : Post) : Prop := created_at q <= created_at p.

Fixpoint insert_desc (p : Post) (rows : list Post) : list Post :=
  match rows with
  | [] => [p]
  | q :: rest =>
      if created_at q <=? created_at p then p :: q :: rest
      else q :: insert_desc p rest
  end.

(** The rows of a table ordered by creation time, newest first. *)
Definition order_by_created_at_desc (rows : list Post) : list Post :=
  foldr insert_desc [] rows.

(** The rows [select(Post).order_by(Post.created_at.desc())] lists.  Among
    rows of equal creation time the database is free to choose the order; the
    listing here is one such choice, and no property below rests on it. *)
Definition select_posts_newest_first (s : Session) : list Post :=
  order_by_created_at_desc (snd <$> map_to_list (posts s)).

(** [session.execute(select(Post).order_by(Post.created_at.desc()))] with
    [result.all()]: the query may fail, like every round trip to the
    database; an answered query lists the rows newest first. *)
Definition select_all_posts (env : DbEnv) : M Session (list Post) :=
  may_raise (db_execute env);;
  do s <- get;
  ret (select_posts_newest_first s).

(** ** The HTTP layer *)

(** A route as its decorator declares it: [@app_route.post("/upload")] and
    the like.  [route_status_code] is the decorator's [status_code] argument,
    [None] when the decorator does not give one. *)
Record Route : Type := {
  route_method : string;
  route_path : string;
  route_status_code : option Z
}.

Definition upload_route : Route :=
  {| route_method := "POST"; route_path := "/upload"; route_status_code := None |}.

Definition feeds_route : Route :=
  {| route_method := "GET"; route_path := "/feeds"; route_status_code := None |}.

Definition delete_route : Route :=
  {| route_method := "DELETE"; route_path := "/posts/{post_id}"; route_status_code := None |}.

(** The status FastAPI gives the response of a handler that returns, when its
    decorator declares none. *)
Definition default_status_code : Z := 200.

Record Response (A : Type) : Type := {
  status : Z;
  body : A + string
}.
Arguments status {A} r.
Arguments body {A} r.

(** FastAPI's answer to a handler's outcome: a returned value is the body,
    under the route's status; a raised [HTTPException] gives its own status
    and detail; any other exception is an internal server error. *)
Definition respond {A} (r : Route) (o : outcome A) : Response A :=
  match o with
  | Return a =>
      {| status := default default_status_code (route_status_code r); body := inl a |}
  | Raise (HTTPException status_code detail) =>
      {| status := status_code; body := inr detail |}
  | Raise (PyError _ _) =>
      {| status := 500; body := inr "Internal Server Error" |}
  end.

(** ** GET /feeds *)

(** One entry of the ["posts"] list of the feed. *)
Record PostDetails : Type := {
  d_id : string;
  d_user_id : string;
  d_caption : string;
  d_url : string;
  d_file_type : string;
  d_file_name : string;
  d_created_at : Z;
  d_updated_at : Z;
  d_is_owner : bool;
  d_email : string
}.

(** The dictionary appended for each post in the loop of [get_feeds]. *)
Definition post_details (user : User) (post : Post) : PostDetails :=
  {| d_id := str_uuid (id post);
     d_user_id := str_uuid (user_id post);
     d_caption := caption post;
     d_url := url post;
     d_file_type := file_type post;
     d_file_name := file_name post;
     d_created_at := created_at post;
     d_updated_at := updated_at post;
     d_is_owner := bool_decide (user_id post = user_ident user);
     d_email := email user |}.

(** [get_feeds]: the value of the ["posts"] key of the returned dictionary.
    The handler has no [try]: an exception of the query leaves it as it
    is. *)
Definition get_feeds (env : DbEnv) (user : User) : M Session (list PostDetails) :=
  do total_posts <- select_all_posts env;
  ret (post_details user <$> total_posts).

(** ** DELETE /posts/{post_id} *)

(** The dictionary [delete_post_by_id] returns. *)
Record Deleted : Type := {
  success : bool;
  message : string;
  post_id : string
}.

Section DeletePost.

(** [uuid.UUID(s)] of Python's library: the identifier a string denotes, or
    the [ValueError] raised for a string that denotes none. *)
Variable uuid_UUID : string -> outcome UUID.

Definition delete_post_by_id (post_id : string) (env : DbEnv) (user : User)
  : M Session Deleted :=
  try_except
    (do post_id <- call (uuid_UUID post_id);
     do post <- select_post_by_id env post_id;
     match post with
     | None => raise (HTTPException 404 "Post not found")
     | Some post =>
         if bool_decide (user_id post <> user_ident user)
         then raise (HTTPException 403 "Not authorized to delete this post")
         else
           session_delete post;;
           session_commit env;;
           ret {| success := true;
                  message := "Post deleted";
                  post_id := str_uuid (id post) |}
     end)
    (fun e => raise (HTTPException 500 ("Error deleting post: " +:+ str e))).

End DeletePost.

(** ** POST /upload *)

(** *** Paths and temporary names *)

(** [s.rfind(c)]: the index of the last occurrence of [c], or -1. *)
Fixpoint rfind (c : ascii) (s : string) : Z :=
  match s with
  | EmptyString => -1
  | String a rest =>
      let k := rfind c rest in
      if 0 <=? k then k + 1 else if Ascii.eqb a c then 0 else -1
  end.

Fixpoint has_non_dot (s : string) : bool :=
  match s with
  | EmptyString => false
  | String a rest => negb (Ascii.eqb a ".") || has_non_dot rest
  end.

(** [os.path.splitext(p)] (POSIX): the extension starts at the last dot of the
    last path component, leading dots of that component apart. *)
Definition splitext (p : string) : string * string :=
  let sepIndex := rfind "/" p in
  let dotIndex := rfind "." p in
  if (sepIndex <? dotIndex)
     && has_non_dot (String.substring (Z.to_nat (sepIndex + 1))
                                      (Z.to_nat (dotIndex - (sepIndex + 1))) p)
  then (String.substring 0 (Z.to_nat dotIndex) p,
        String.substring (Z.to_nat dotIndex) (String.length p - Z.to_nat dotIndex) p)
  else (p, "").

(** [os.path.join(a, b)] (POSIX). *)
Definition path_join (a b : string) : string :=
  if String.prefix "/" b then b
  else if String.eqb a "" || (rfind "/" a =? Z.of_nat (String.length a) - 1)
       then a +:+ b
       else a +:+ "/" +:+ b.

(** *** The request and its environment *)

(** The [UploadFile] of the multipart body: FastAPI types both attributes
    as optional strings. *)
Record UploadFile : Type := {
  filename : option string;
  content_type : option string
}.

(** The result [imagekit.upload_file] returns. *)
Record UploadFileResult : Type := {
  http_status_code : Z;
  result_url : string;
  result_name : string
}.

(** What the operating system, the object store and the database do during
    one upload request. *)
Record UploadEnv : Type := {
  tmp_dir : string;
  tmp_random : string;
  tmp_create : option exn;
  copy_error : option exn;
  open_error : option exn;
  upload_result : outcome UploadFileResult;
  db : DbEnv
}.

(** The state one call of [create_post] works on: its database session, the
    files on the local disk, the paths of the files the request has created,
    the local variable [temp_file_path] ([None] is Python's [None]) and
    whether the uploaded stream has been closed. *)
Record Frame : Type := {
  session : Session;
  disk : gset string;
  created : list string;
  temp_file_path : option string;
  file_closed : bool
}.

Definition begin_request (table : gmap N Post) (files : gset string) : Frame :=
  {| session := open_session table;
     disk := files;
     created := [];
     temp_file_path := None;
     file_closed := false |}.

Definition in_session {A} (m : M Session A) : M Frame A :=
  zoom session
       (fun s fr => {| session := s; disk := disk fr; created := created fr;
                       temp_file_path := temp_file_path fr;
                       file_closed := file_closed fr |})
       m.

Definition set_temp_file_path (path : string) : M Frame unit :=
  modify (fun fr => {| session := session fr; disk := disk fr; created := created fr;
                       temp_file_path := Some path;
                       file_closed := file_closed fr |}).

Definition create_file (path : string) : M Frame unit :=
  modify (fun fr => {| session := session fr;
                       disk := {[path]} ∪ disk fr;
                       created := path :: created fr;
                       temp_file_path := temp_file_path fr;
                       file_closed := file_closed fr |}).

(** [os.unlink(path)], taken as a removal that succeeds: the file is the
    request's own temporary file. *)
Definition os_unlink (path : string) : M Frame unit :=
  modify (fun fr => {| session := session fr;
                       disk := disk fr ∖ {[path]};
                       created := created fr;
                       temp_file_path := temp_file_path fr;
                       file_closed := file_closed fr |}).

(** [file.file.close()]. *)
Definition close_upload : M Frame unit :=
  modify (fun fr => {| session := session fr; disk := disk fr; created := created fr;
                       temp_file_path := temp_file_path fr;
                       file_closed := true |}).

(** The name [tempfile] gives the file: the directory joined with ["tmp"],
    random characters and the suffix. *)
Definition temp_name (env : UploadEnv) (suffix : string) : string :=
  path_join (tmp_dir env) ("tmp" +:+ tmp_random env +:+ suffix).

(** [tempfile.NamedTemporaryFile(delete=False, suffix=suffix)]: the file is
    created exclusively, under a name no file has. *)
Definition NamedTemporaryFile (env : UploadEnv) (suffix : string) : M Frame string :=
  may_raise (tmp_create env);;
  do fr <- get;
  let name := temp_name env suffix in
  if bool_decide (name ∈ disk fr)
  then raise (PyError "FileExistsError" "No usable temporary file name found")
  else create_file name;; ret name.

(** [file.content_type.startswith("video/")]. *)
Definition content_type_is_video (file : UploadFile) : M Frame bool :=
  match content_type file with
  | Some ct => ret (String.prefix "video/" ct)
  | None =>
      raise (PyError "AttributeError" "'NoneType' object has no attribute 'startswith'")
  end.

(** [os.path.splitext(file.filename)[1]]. *)
Definition filename_suffix (file : UploadFile) : M Frame string :=
  match filename file with
  | Some name => ret (snd (splitext name))
  | None =>
      raise (PyError "TypeError" "expected str, bytes or os.PathLike object, not NoneType")
  end.

(** The [finally] block of [create_post]. *)
Definition create_post_cleanup : M Frame unit :=
  do fr <- get;
  match temp_file_path fr with
  | Some path =>
      if negb (String.eqb path "") && bool_decide (path ∈ disk fr)
      then os_unlink path
      else ret tt
  | None => ret tt
  end;;
  close_upload.

(** The body of the [try] block of [create_post]. *)
Definition create_post_try (file : UploadFile) (caption : string) (user : User)
    (env : UploadEnv) : M Frame Post :=
  do suffix <- filename_suffix file;
  do temp_file <- NamedTemporaryFile env suffix;
  set_temp_file_path temp_file;;
  may_raise (copy_error env);;
  may_raise (open_error env);;
  do upload_file_result <- call (upload_result env);
  if http_status_code upload_file_result =? 200
  then
    do is_video <- content_type_is_video file;
    let post :=
      {| new_user_id := user_ident user;
         new_caption := caption;
         new_url := result_url upload_file_result;
         new_file_type := if is_video then "video" else "image";
         new_file_name := result_name upload_file_result |} in
    in_session (session_add post);;
    in_session (session_commit (db env));;
    in_session (session_refresh (db env))
  else raise (HTTPException 500 "File upload failed").

Definition create_post (file : UploadFile) (caption : string) (user : User)
    (env : UploadEnv) : M Frame Post :=
  try_finally
    (try_except
       (create_post_try file caption user env)
       (fun e => raise (HTTPException 500 ("File upload failed: " +:+ str e))))
    create_post_cleanup.


(** A table that stores every row under the row's own identifier, as a
    table whose primary key is the [id] column does. *)
Definition keyed_by_id (table : gmap N Post) : Prop :=
  map_Forall (fun k row => id row = k) table.

(** The row [create_post] builds for a file of declared content type [ct]
    once the store has answered [res]. *)
Definition created_post (user : User) (caption ct : string) (res : UploadFileResult)
    (env : UploadEnv) : Post :=
  flush (db_new_id (db env)) (db_now (db env))
    {| new_user_id := user_ident user;
       new_caption := caption;
       new_url := result_url res;
       new_file_type := if String.prefix "video/" ct then "video" else "image";
       new_file_name := result_name res |}.

(** An upload that gets as far as a successful commit: the file has the name
    [name] and the declared content type [ct], staging and transmission do
    not raise, the store answers [res] with status 200, and the commit of the
    new row succeeds. *)
Definition upload_commits (file : UploadFile) (env : UploadEnv)
    (table : gmap N Post) (files : gset string)
    (name ct : string) (res : UploadFileResult) : Prop :=
  filename file = Some name
  /\ content_type file = Some ct
  /\ tmp_create env = None
  /\ (temp_name env (snd (splitext name)) ∉ files)
  /\ copy_error env = None
  /\ open_error env = None
  /\ upload_result env = Return res
  /\ http_status_code res = 200
  /\ db_commit (db env) = None
  /\ table !! db_new_id (db env) = None.

(** ** Secrets of app/users.py *)

Module Users.

Definition SECRET : string := "SECRET_KEY_FOR_JWT_TOKENS".

(** The class attributes [UserManager] sets. *)
Record UserManagerSecrets : Type := {
  reset_password_token_secret : string;
  verification_token_secret : string
}.

Definition UserManager : UserManagerSecrets :=
  {| reset_password_token_secret := SECRET;
     verification_token_secret := SECRET |}.

(** The arguments of [JWTStrategy(...)]. *)
Record JWTStrategy : Type := {
  secret : string;
  lifetime_seconds : Z
}.

Definition get_jwt_strategy : JWTStrategy :=
  {| secret := SECRET; lifetime_seconds := 3600 |}.

End Users.

(** ** Sample data *)

Module Sample.

Definition alice : User := {| user_ident := 1%N; email := "alice@example.org" |}.
Definition bob : User := {| user_ident := 2%N; email := "bob@example.org" |}.

Definition cat_png : UploadFile :=
  {| filename := Some "cat.png"; content_type := Some "image/png" |}.

Definition clip_mp4 : UploadFile :=
  {| filename := Some "clip.mp4"; content_type := Some "video/mp4" |}.

(** A database whose round trips all succeed. *)
Definition quiet_db (new_id : UUID) (now : Z) : DbEnv :=
  {| db_new_id := new_id; db_now := now;
     db_execute := None; db_commit := None; db_refresh := None |}.

(** An upload during which nothing fails and the store answers [code]. *)
Definition store_answers (code : Z) (d : DbEnv) : UploadEnv :=
  {| tmp_dir := "/tmp"; tmp_random := "k3v9x_2a";
     tmp_create := None; copy_error := None; open_error := None;
     upload_result :=
       Return {| http_status_code := code;
                 result_url := "https://ik.example.org/cat_Zq1.png";
                 result_name := "cat_Zq1.png" |};
     db := d |}.

(** The post alice made of [cat_png] with caption ["hi"]. *)
Definition cat_post : Post :=
  {| id := 7%N; user_id := 1%N; caption := "hi";
     url := "https://ik.example.org/cat_Zq1.png";
     file_type := "image"; file_name := "cat_Zq1.png";
     created_at := 100; updated_at := 100 |}.

Definition clip_post : Post :=
  {| id := 9%N; user_id := 2%N; caption := "look";
     url := "https://ik.example.org/clip_b7.mp4";
     file_type := "video"; file_name := "clip_b7.mp4";
     created_at := 250; updated_at := 250 |}.

Definition one_post : gmap N Post := {[ 7%N := cat_post ]}.

Definition two_posts : gmap N Post := <[ 9%N := clip_post ]> one_post.

Definition hex_value (c : ascii) : option N :=
  let n := N_of_ascii c in
  if (48 <=? n)%N && (n <=? 57)%N then Some (n - 48)%N
  else if (97 <=? n)%N && (n <=? 102)%N then Some (n - 87)%N
  else if (65 <=? n)%N && (n <=? 70)%N then Some (n - 55)%N
  else None.

Fixpoint drop_hyphens (s : string) : string :=
  match s with
  | EmptyString => EmptyString
  | String a rest =>
      if Ascii.eqb a "-" then drop_hyphens rest else String a (drop_hyphens rest)
  end.

Fixpoint read_hex (acc : N) (s : string) : option N :=
  match s with
  | EmptyString => Some acc
  | String a rest =>
      match hex_value a with
      | Some d => read_hex (16 * acc + d)%N rest
      | None => None
      end
  end.

(** [uuid.UUID(s)] on the textual form [str_uuid] prints: hyphens are
    dropped, 32 hexadecimal digits must remain.  (The library also reads a
    few other spellings; the sample requests do not use them.) *)
Definition uuid_of_hex (s : string) : outcome UUID :=
  let digits := drop_hyphens s in
  if negb (String.length digits =? 32)%nat
  then Raise (PyError "ValueError" "badly formed hexadecimal UUID string")
  else match read_hex 0%N digits with
       | Some v => Return v
       | None => Raise (PyError "ValueError" "invalid literal for int() with base 16")
       end.

End Sample.

(** * Properties *)

(** ** Control flow *)

Section ControlFlow.

Context {S A : Type}.

(** Whatever the body raises, [except Exception] replaces by what the
    handler does; an [HTTPException] raised inside the [try] is no exception
    to that. *)
Lemma try_except_raise (body : M S A) (handler : exn -> M S A) (s s' : S) (e : exn) :
  body s = (Raise e, s') -> try_except body handler s = handler e s'.
Proof. intros Hbody. unfold try_except. by rewrite Hbody. Qed.

Lemma try_except_return (body : M S A) (handler : exn -> M S A) (s s' : S) (a : A) :
  body s = (Return a, s') -> try_except body handler s = (Return a, s').
Proof. intros Hbody. unfold try_except. by rewrite Hbody. Qed.

(** The state after [try]/[finally] is the one the cleanup leaves. *)
Lemma try_finally_state (body : M S A) (cleanup : M S unit) (s : S) :
  snd (try_finally body cleanup s) = snd (cleanup (snd (body s))).
Proof.
  unfold try_finally. destruct (body s) as [o s']. simpl.
  by destruct (cleanup s') as [[[]|e] s''].
Qed.

End ControlFlow.

(** ** The feed *)

Section Feed.

#[local] Instance newer_first_trans : Transitive newer_first.
Proof. unfold newer_first. intros p q r ? ?. lia. Qed.

Lemma insert_desc_perm (p : Post) (rows : list Post) :
  insert_desc p rows ≡ₚ p :: rows.
Proof.
  induction rows as [|q rest IH]; simpl; [done|].
  destruct (created_at q <=? created_at p); [done|].
  rewrite IH. apply Permutation_swap.
Qed.

Lemma insert_desc_sorted (p : Post) (rows : list Post) :
  Sorted newer_first rows -> Sorted newer_first (insert_desc p rows).
Proof.
  induction rows as [|q rest IH]; simpl; intros Hs.
  - repeat constructor.
  - destruct (Z.leb_spec (created_at q) (created_at p)) as [Hle|Hlt].
    + constructor; [done|]. by constructor.
    + apply Sorted_inv in Hs as [Hrest Hhd].
      constructor; [by apply IH|].
      destruct rest as [|r rest']; simpl.
      * constructor. unfold newer_first. lia.
      * destruct (Z.leb_spec (created_at r) (created_at p)).
        -- constructor. unfold newer_first. lia.
        -- constructor. by apply HdRel_inv in Hhd.
Qed.

Lemma order_by_created_at_desc_perm (rows : list Post) :
  order_by_created_at_desc rows ≡ₚ rows.
Proof.
  induction rows as [|p rest IH]; simpl; [done|].
  by rewrite insert_desc_perm, IH.
Qed.

Lemma order_by_created_at_desc_sorted (rows : list Post) :
  StronglySorted newer_first (order_by_created_at_desc rows).
Proof.
  apply Sorted_StronglySorted; [apply newer_first_trans|].
  induction rows as [|p rest IH]; simpl; [constructor|].
  by apply insert_desc_sorted.
Qed.

(** When the query is answered, [get_feeds] returns the entries of the
    listed rows and leaves the session as it was. *)
Lemma get_feeds_run (env : DbEnv) (user : User) (s : Session) :
  db_execute env = None ->
  get_feeds env user s
  = (Return (post_details user <$> select_posts_newest_first s), s).
Proof.
  intros Hexecute. unfold get_feeds, select_all_posts, may_raise, bind, ret, get.
  by rewrite Hexecute.
Qed.

(** When the query raises, so does [get_feeds]: nothing in the handler
    catches the exception. *)
Lemma get_feeds_raise (env : DbEnv) (user : User) (s : Session) (e : exn) :
  db_execute env = Some e ->
  get_feeds env user s = (Raise e, s).
Proof.
  intros Hexecute. unfold get_feeds, select_all_posts, may_raise, bind, raise.
  by rewrite Hexecute.
Qed.

(** A returned feed is the list of the entries of the listed rows. *)
Lemma get_feeds_return (env : DbEnv) (user : User) (s : Session)
    (details : list PostDetails) :
  fst (get_feeds env user s) = Return details ->
  db_execute env = None
  /\ details = post_details user <$> select_posts_newest_first s.
Proof.
  destruct (db_execute env) as [e|] eqn:Hexecute.
  - by rewrite (get_feeds_raise env user s e).
  - rewrite get_feeds_run by done. simpl. by intros [= <-].
Qed.

(** Every row of the table is listed. *)
Lemma select_posts_newest_first_complete (s : Session) (k : N) (post : Post) :
  posts s !! k = Some post -> post ∈ select_posts_newest_first s.
Proof.
  intros Hk. unfold select_posts_newest_first.
  rewrite order_by_created_at_desc_perm.
  apply list_elem_of_fmap. exists (k, post). split; [done|].
  by apply elem_of_map_to_list.
Qed.

(** C5: for every caller and every stored table of posts, a feed request
    whose query the database answers returns one entry per Post row, no row
    left out and none repeated (the listed rows are a permutation of the
    table's rows); each entry carries the identifier, owner, caption, URL,
    media kind, file name and timestamps of its row; and the entries are
    ordered by creation time descending: every entry is at least as recent as
    every entry after it. *)
Theorem get_feeds_all_posts_newest_first (env : DbEnv) (user : User) (s : Session) :
  db_execute env = None ->
  exists (rows : list Post) (entries : list PostDetails),
    get_feeds env user s = (Return entries, s)
    /\ rows ≡ₚ snd <$> map_to_list (posts s)
    /\ length entries = size (posts s)
    /\ Forall2 (fun row d =>
                  d_id d = str_uuid (id row)
                  /\ d_user_id d = str_uuid (user_id row)
                  /\ d_caption d = caption row
                  /\ d_url d = url row
                  /\ d_file_type d = file_type row
                  /\ d_file_name d = file_name row
                  /\ d_created_at d = created_at row
                  /\ d_updated_at d = updated_at row)
               rows entries
    /\ StronglySorted newer_first rows
    /\ StronglySorted (fun d e => d_created_at e <= d_created_at d) entries.
Proof.
  intros Hexecute.
  exists (select_posts_newest_first s), (post_details user <$> select_posts_newest_first s).
  assert (Hperm : select_posts_newest_first s ≡ₚ snd <$> map_to_list (posts s))
    by apply order_by_created_at_desc_perm.
  assert (Hsorted : StronglySorted newer_first (select_posts_newest_first s))
    by apply order_by_created_at_desc_sorted.
  split_and!; try done.
  - by apply get_feeds_run.
  - by rewrite length_fmap, Hperm, length_fmap, length_map_to_list.
  - apply Forall2_fmap_r, Forall_Forall2_diag, Forall_forall.
    intros row _. by repeat split.
  - by apply (StronglySorted_fmap _ newer_first).
Qed.

Lemma get_feeds_all_posts_newest_first_witness :
  exists (rows : list Post) (entries : list PostDetails),
    get_feeds (Sample.quiet_db 0 0) Sample.bob (open_session Sample.two_posts)
    = (Return entries, open_session Sample.two_posts)
    /\ rows ≡ₚ snd <$> map_to_list (posts (open_session Sample.two_posts))
    /\ length entries = size (posts (open_session Sample.two_posts))
    /\ Forall2 (fun row d =>
                  d_id d = str_uuid (id row)
                  /\ d_user_id d = str_uuid (user_id row)
                  /\ d_caption d = caption row
                  /\ d_url d = url row
                  /\ d_file_type d = file_type row
                  /\ d_file_name d = file_name row
                  /\ d_created_at d = created_at row
                  /\ d_updated_at d = updated_at row)
               rows entries
    /\ StronglySorted newer_first rows
    /\ StronglySorted (fun d e => d_created_at e <= d_created_at d) entries.
Proof.
  apply (get_feeds_all_posts_newest_first (Sample.quiet_db 0 0) Sample.bob
           (open_session Sample.two_posts)).
  reflexivity.
Defined.

(** C6: in the feed returned to a caller, the entry at each position is the
    entry of the post listed at that position, and its [is_owner] field is
    true if and only if that post's owning user identifier equals the
    caller's identifier. *)
Theorem feed_is_owner_iff (env : DbEnv) (user : User) (s : Session)
    (details : list PostDetails) (i : nat) (d : PostDetails) :
  fst (get_feeds env user s) = Return details ->
  details !! i = Some d ->
  exists post : Post,
    select_posts_newest_first s !! i = Some post
    /\ post ∈ snd <$> map_to_list (posts s)
    /\ d_id d = str_uuid (id post)
    /\ d_user_id d = str_uuid (user_id post)
    /\ (d_is_owner d = true <-> user_id post = user_ident user).
Proof.
  intros [_ ->]%get_feeds_return Hd.
  rewrite list_lookup_fmap in Hd.
  destruct (select_posts_newest_first s !! i) as [post|] eqn:Hpost; [|done].
  simpl in Hd. injection Hd as <-.
  exists post. split_and!; try done.
  - apply list_elem_of_lookup_2 in Hpost.
    unfold select_posts_newest_first in Hpost.
    by rewrite order_by_created_at_desc_perm in Hpost.
  - simpl. apply bool_decide_eq_true.
Qed.

Lemma feed_is_owner_iff_witness :
  exists post : Post,
    select_posts_newest_first (open_session Sample.two_posts) !! 1%nat = Some post
    /\ post ∈ snd <$> map_to_list (posts (open_session Sample.two_posts))
    /\ d_id (post_details Sample.alice Sample.cat_post) = str_uuid (id post)
    /\ d_user_id (post_details Sample.alice Sample.cat_post) = str_uuid (user_id post)
    /\ (d_is_owner (post_details Sample.alice Sample.cat_post) = true
        <-> user_id post = user_ident Sample.alice).
Proof.
  apply (feed_is_owner_iff (Sample.quiet_db 0 0) Sample.alice
           (open_session Sample.two_posts)
           (post_details Sample.alice <$> [Sample.clip_post; Sample.cat_post])).
  - vm_compute. reflexivity.
  - reflexivity.
Defined.

(** C8: in the feed returned to a caller, the [email] field of every entry
    is the caller's email, whoever owns the post of that entry. *)
Theorem feed_email_is_callers (env : DbEnv) (user : User) (s : Session)
    (details : list PostDetails) (d : PostDetails) :
  fst (get_feeds env user s) = Return details ->
  d ∈ details ->
  d_email d = email user.
Proof.
  intros [_ ->]%get_feeds_return Hd.
  apply list_elem_of_fmap in Hd as (post & -> & _). reflexivity.
Qed.

Lemma feed_email_is_callers_witness :
  d_email (post_details Sample.bob Sample.cat_post) = email Sample.bob
  /\ user_id Sample.cat_post <> user_ident Sample.bob.
Proof.
  split.
  - apply (feed_email_is_callers (Sample.quiet_db 0 0) Sample.bob
             (open_session Sample.one_post)
             [post_details Sample.bob Sample.cat_post]).
    + vm_compute. reflexivity.
    + apply list_elem_of_here.
  - discriminate.
Defined.

End Feed.

(** ** The secrets *)

(** C9: the secret of the JWT strategy, the password-reset token secret and
    the email-verification token secret are one and the same static string,
    the constant [SECRET]. *)
Theorem secrets_are_one_constant :
  Users.secret Users.get_jwt_strategy = Users.SECRET
  /\ Users.reset_password_token_secret Users.UserManager = Users.SECRET
  /\ Users.verification_token_secret Users.UserManager = Users.SECRET
  /\ Users.secret Users.get_jwt_strategy
     = Users.reset_password_token_secret Users.UserManager
  /\ Users.reset_password_token_secret Users.UserManager
     = Users.verification_token_secret Users.UserManager
  /\ Users.SECRET = "SECRET_KEY_FOR_JWT_TOKENS".
Proof. repeat split. Qed.

(** ** Deleting a post *)

Section Delete.

Variable uuid_UUID : string -> outcome UUID.

Ltac run_delete :=
  unfold delete_post_by_id, try_except, select_post_by_id, session_delete,
    session_commit, may_raise, call, bind, ret, raise, get, modify; simpl.

(** A missing post: the handler raises the 404 inside its [try], the
    [except Exception] clause catches it and raises a 500 in its place. *)
Lemma delete_missing_post (post_id : string) (u : UUID) (env : DbEnv)
    (user : User) (s : Session) :
  uuid_UUID post_id = Return u ->
  db_execute env = None ->
  posts s !! u = None ->
  delete_post_by_id uuid_UUID post_id env user s
  = (Raise (HTTPException 500
             ("Error deleting post: " +:+ str (HTTPException 404 "Post not found"))), s).
Proof. intros Hu Hex Hrow. run_delete. by rewrite Hu, Hex, Hrow. Qed.

(** A post of another user: the 403 meets the same [except] clause, and the
    session is left as it was. *)
Lemma delete_foreign_post (post_id : string) (u : UUID) (env : DbEnv)
    (user : User) (s : Session) (post : Post) :
  uuid_UUID post_id = Return u ->
  db_execute env = None ->
  posts s !! u = Some post ->
  user_id post <> user_ident user ->
  delete_post_by_id uuid_UUID post_id env user s
  = (Raise (HTTPException 500
             ("Error deleting post: "
              +:+ str (HTTPException 403 "Not authorized to delete this post"))), s).
Proof.
  intros Hu Hex Hrow Hne. run_delete. rewrite Hu, Hex, Hrow.
  by rewrite bool_decide_eq_true_2.
Qed.

(** The only statuses [delete_post_by_id] answers with. *)
Lemma delete_post_by_id_statuses (post_id : string) (env : DbEnv)
    (user : User) (s : Session) :
  let answer := respond delete_route (fst (delete_post_by_id uuid_UUID post_id env user s)) in
  status answer = 200 \/ status answer = 500.
Proof.
  run_delete.
  destruct (uuid_UUID post_id) as [u|e]; [|by right].
  destruct (db_execute env); simpl; [by right|].
  destruct (posts s !! u) as [post|]; [|by right].
  case_bool_decide; [by right|]. simpl.
  destruct (db_commit env); [by right|].
  destruct (added s); [|by left].
  destruct (_ !! db_new_id env); [by right|by left].
Qed.

(** The owner's request deletes the row. *)
Lemma delete_own_post (post_id : string) (u : UUID) (env : DbEnv)
    (user : User) (table : gmap N Post) (post : Post) :
  uuid_UUID post_id = Return u ->
  db_execute env = None ->
  db_commit env = None ->
  table !! u = Some post ->
  user_id post = user_ident user ->
  delete_post_by_id uuid_UUID post_id env user (open_session table)
  = (Return {| success := true; message := "Post deleted";
               post_id := str_uuid (id post) |},
     open_session (delete (id post) table)).
Proof.
  intros Hu Hex Hco Hrow Hown. run_delete. rewrite Hu, Hex. simpl. rewrite Hrow.
  rewrite bool_decide_eq_false_2 by (intros Hne; by apply Hne).
  simpl. by rewrite Hco.
Qed.

End Delete.

(** C1 (the code departs from it): a delete request for an identifier that
    matches no Post row is answered with status 500, not with 404: the
    handler raises its 404 inside the [try] block whose [except Exception]
    clause turns every exception into a 500. *)
Theorem delete_missing_post_answers_500 :
  let request :=
    delete_post_by_id Sample.uuid_of_hex "00000000-0000-0000-0000-000000000007"
      (Sample.quiet_db 0 0) Sample.alice (open_session ∅) in
  Sample.uuid_of_hex "00000000-0000-0000-0000-000000000007" = Return 7%N
  /\ posts (open_session ∅) !! 7%N = None
  /\ status (respond delete_route (fst request)) = 500
  /\ status (respond delete_route (fst request)) <> 404.
Proof. vm_compute. split_and!; done. Qed.

(** C2 (the code departs from it): a delete request by a caller who does not
    own the post leaves the row in the table and in the feed, but is answered
    with status 500, not with 403: the 403 is raised inside the same [try]
    block. *)
Theorem delete_by_non_owner_answers_500 :
  let request :=
    delete_post_by_id Sample.uuid_of_hex "00000000-0000-0000-0000-000000000007"
      (Sample.quiet_db 0 0) Sample.bob (open_session Sample.one_post) in
  posts (open_session Sample.one_post) !! 7%N = Some Sample.cat_post
  /\ user_id Sample.cat_post <> user_ident Sample.bob
  /\ status (respond delete_route (fst request)) = 500
  /\ status (respond delete_route (fst request)) <> 403
  /\ posts (snd request) = Sample.one_post
  /\ fst (get_feeds (Sample.quiet_db 0 0) Sample.bob (snd request))
     = Return [post_details Sample.bob Sample.cat_post].
Proof. vm_compute. split_and!; done. Qed.

(** ** Uploading *)

Section Upload.

Ltac run_upload :=
  unfold create_post, create_post_try, try_finally, try_except, create_post_cleanup,
    filename_suffix, NamedTemporaryFile, content_type_is_video, in_session, zoom,
    session_add, session_commit, session_refresh, set_temp_file_path, create_file,
    os_unlink, close_upload, may_raise, call, bind, ret, raise, get, modify;
  simpl.

Lemma temp_name_nonempty (env : UploadEnv) (suffix : string) :
  temp_name env suffix <> "".
Proof.
  unfold temp_name, path_join. simpl.
  destruct (_ || _); by destruct (tmp_dir env).
Qed.

Lemma create_post_try_staged (file : UploadFile) (caption : string) (user : User)
    (env : UploadEnv) (table : gmap N Post) (files : gset string) :
  let fr := snd (create_post_try file caption user env (begin_request table files)) in
  (temp_file_path fr = None /\ created fr = [] /\ disk fr = files)
  \/ (exists name : string,
        name <> "" /\ (name ∉ files) /\ temp_file_path fr = Some name
        /\ created fr = [name] /\ disk fr = {[name]} ∪ files).
Proof.
  run_upload.
  destruct (filename file) as [fname|]; simpl; [|by left].
  destruct (tmp_create env); simpl; [by left|].
  case_bool_decide as Hfresh; simpl; [by left|].
  right. exists (temp_name env (snd (splitext fname))).
  pose proof (temp_name_nonempty env (snd (splitext fname))).
  destruct (copy_error env); simpl; [done|].
  destruct (open_error env); simpl; [done|].
  destruct (upload_result env) as [res|e]; simpl; [|done].
  destruct (http_status_code res =? 200); simpl; [|done].
  destruct (content_type file); simpl; [|done].
  destruct (db_commit (db env)); simpl; [done|].
  destruct (table !! db_new_id (db env)); simpl; [done|].
  destruct (db_refresh (db env)); simpl; [done|].
  by destruct (_ !! db_new_id (db env)).
Qed.

(** The [except] clause of [create_post] raises and leaves the state alone. *)
Lemma create_post_except_state (file : UploadFile) (caption : string) (user : User)
    (env : UploadEnv) (fr : Frame) :
  snd (try_except (create_post_try file caption user env)
         (fun e => raise (HTTPException 500 ("File upload failed: " +:+ str e))) fr)
  = snd (create_post_try file caption user env fr).
Proof.
  unfold try_except. by destruct (create_post_try _ _ _ _ fr) as [[post|e] fr'].
Qed.

(** The [finally] block touches neither the session nor the list of created
    files. *)
Lemma create_post_cleanup_session (fr : Frame) :
  session (snd (create_post_cleanup fr)) = session fr
  /\ created (snd (create_post_cleanup fr)) = created fr.
Proof.
  unfold create_post_cleanup, os_unlink, close_upload, bind, ret, get, modify. simpl.
  destruct (temp_file_path fr) as [path|]; simpl; [|done].
  by destruct (negb (path =? "")%string && bool_decide (path ∈ disk fr)).
Qed.

(** C7: after [create_post] completes, whatever the operating system, the
    object store and the database did during the request (the upload
    succeeded, the store reported a non-success status, or any step raised),
    no file the request created is on the disk any more, and the disk holds
    exactly the files it held before the request. *)
Theorem create_post_removes_temporary_file (file : UploadFile) (caption : string)
    (user : User) (env : UploadEnv) (table : gmap N Post) (files : gset string) :
  let fr := snd (create_post file caption user env (begin_request table files)) in
  Forall (fun path => path ∉ disk fr) (created fr) /\ disk fr = files.
Proof.
  unfold create_post. rewrite try_finally_state, create_post_except_state.
  pose proof (create_post_try_staged file caption user env table files) as Hstaged.
  simpl in Hstaged.
  set (fr := snd (create_post_try file caption user env (begin_request table files))) in *.
  destruct (create_post_cleanup_session fr) as [_ Hcreated]. simpl. rewrite Hcreated.
  unfold create_post_cleanup, os_unlink, close_upload, bind, ret, get, modify. simpl.
  destruct Hstaged as [(Hpath & Hnone & Hdisk)|(name & Hname & Hfresh & Hpath & Hone & Hdisk)].
  - rewrite Hpath, Hnone. simpl. by split.
  - rewrite Hpath, Hone.
    apply String.eqb_neq in Hname. rewrite Hname. simpl.
    rewrite Hdisk.
    rewrite bool_decide_eq_true_2 by (apply elem_of_union_l, elem_of_singleton_2; reflexivity).
    simpl. split.
    + constructor; [|constructor].
      rewrite elem_of_difference, elem_of_singleton. tauto.
    + apply set_eq. intros path.
      rewrite ?Hdisk, elem_of_difference, elem_of_union, elem_of_singleton.
      split; [tauto|]. intros Hin. split; [tauto|]. by intros ->.
Qed.

(** [s.startswith(p)]. *)
Lemma prefix_startswith (p s : string) :
  String.prefix p s = true <-> exists rest : string, s = p +:+ rest.
Proof.
  revert s. induction p as [|a p IH]; intros s.
  - split; [intros _; by exists s|]. intros _. by destruct s.
  - destruct s as [|b s]; simpl.
    + split; [done|]. by intros [rest ?].
    + destruct (Ascii.ascii_dec a b) as [->|Hab].
      * rewrite IH. split; intros [rest Hrest]; exists rest.
        -- by rewrite Hrest.
        -- by injection Hrest.
      * split; [done|]. intros [rest Hrest]. by injection Hrest as -> _.
Qed.

(** What a returning [create_post] has done: the store answered 200, the file
    declared a content type, and the returned post is the row inserted into
    the table, built from the request. *)
Lemma create_post_return (file : UploadFile) (caption : string) (user : User)
    (env : UploadEnv) (fr : Frame) (post : Post) :
  fst (create_post file caption user env fr) = Return post ->
  exists (ct : string) (res : UploadFileResult),
    content_type file = Some ct
    /\ upload_result env = Return res
    /\ http_status_code res = 200
    /\ post = flush (db_new_id (db env)) (db_now (db env))
                {| new_user_id := user_ident user;
                   new_caption := caption;
                   new_url := result_url res;
                   new_file_type := if String.prefix "video/" ct then "video" else "image";
                   new_file_name := result_name res |}
    /\ posts (session (snd (create_post file caption user env fr))) !! id post = Some post.
Proof.
  run_upload.
  destruct (filename file) as [fname|]; simpl; [|by repeat case_match].
  destruct (tmp_create env); simpl; [by repeat case_match|].
  case_bool_decide; simpl; [by repeat case_match|].
  destruct (copy_error env); simpl; [by repeat case_match|].
  destruct (open_error env); simpl; [by repeat case_match|].
  destruct (upload_result env) as [res|e]; simpl; [|by repeat case_match].
  destruct (Z.eqb_spec (http_status_code res) 200); simpl; [|by repeat case_match].
  destruct (content_type file) as [ct|]; simpl; [|by repeat case_match].
  destruct (db_commit (db env)); simpl; [by repeat case_match|].
  destruct (_ !! db_new_id (db env)) eqn:Hrow; simpl; [by repeat case_match|].
  destruct (db_refresh (db env)); simpl; [by repeat case_match|].
  rewrite lookup_insert_eq. simpl.
  intros Hpost. exists ct, res. split_and!; try done.
  - repeat case_match; by simplify_eq/=.
  - repeat case_match; simplify_eq/=; by rewrite lookup_insert_eq.
Qed.

(** C4: the post a successful upload returns (the row it inserted) has
    [file_type] "video" if the file's declared content type begins with
    "video/", and "image" for every other content type. *)
Theorem created_post_file_type (file : UploadFile) (caption : string) (user : User)
    (env : UploadEnv) (fr : Frame) (post : Post) :
  fst (create_post file caption user env fr) = Return post ->
  exists ct : string,
    content_type file = Some ct
    /\ posts (session (snd (create_post file caption user env fr))) !! id post = Some post
    /\ ((exists rest : string, ct = "video/" +:+ rest) -> file_type post = "video")
    /\ (~ (exists rest : string, ct = "video/" +:+ rest) -> file_type post = "image").
Proof.
  intros Hpost.
  destruct (create_post_return _ _ _ _ _ _ Hpost) as (ct & res & Hct & _ & _ & Hflush & Hrow).
  exists ct. split_and!; try done.
  - intros Hvideo%prefix_startswith. rewrite Hflush. simpl. by rewrite Hvideo.
  - intros Hother. rewrite Hflush. simpl.
    destruct (String.prefix "video/" ct) eqn:Hprefix; [|done].
    by apply prefix_startswith in Hprefix.
Qed.

Lemma created_post_file_type_witness :
  exists ct : string,
    content_type Sample.clip_mp4 = Some ct
    /\ posts (session (snd (create_post Sample.clip_mp4 "look" Sample.bob
                              (Sample.store_answers 200 (Sample.quiet_db 9 250))
                              (begin_request Sample.one_post ∅))))
         !! id (flush 9%N 250
                  {| new_user_id := 2%N; new_caption := "look";
                     new_url := "https://ik.example.org/cat_Zq1.png";
                     new_file_type := "video"; new_file_name := "cat_Zq1.png" |})
       = Some (flush 9%N 250
                 {| new_user_id := 2%N; new_caption := "look";
                    new_url := "https://ik.example.org/cat_Zq1.png";
                    new_file_type := "video"; new_file_name := "cat_Zq1.png" |})
    /\ ((exists rest : string, ct = "video/" +:+ rest) ->
        file_type (flush 9%N 250
                     {| new_user_id := 2%N; new_caption := "look";
                        new_url := "https://ik.example.org/cat_Zq1.png";
                        new_file_type := "video"; new_file_name := "cat_Zq1.png" |})
        = "video")
    /\ (~ (exists rest : string, ct = "video/" +:+ rest) ->
        file_type (flush 9%N 250
                     {| new_user_id := 2%N; new_caption := "look";
                        new_url := "https://ik.example.org/cat_Zq1.png";
                        new_file_type := "video"; new_file_name := "cat_Zq1.png" |})
        = "image").
Proof.
  apply (created_post_file_type Sample.clip_mp4 "look" Sample.bob
           (Sample.store_answers 200 (Sample.quiet_db 9 250))
           (begin_request Sample.one_post ∅)).
  vm_compute. reflexivity.
Defined.

(** The [finally] block of [create_post] does not raise: the outcome of the
    handler is the outcome of its [try]/[except]. *)
Lemma create_post_outcome (file : UploadFile) (caption : string) (user : User)
    (env : UploadEnv) (fr : Frame) :
  fst (create_post file caption user env fr)
  = fst (try_except (create_post_try file caption user env)
           (fun e => raise (HTTPException 500 ("File upload failed: " +:+ str e))) fr).
Proof.
  unfold create_post, try_finally.
  destruct (try_except _ _ fr) as [o fr']. simpl.
  unfold create_post_cleanup, os_unlink, close_upload, bind, ret, get, modify. simpl.
  destruct (temp_file_path fr') as [path|]; simpl; [|done].
  by destruct (negb (path =? "")%string && bool_decide (path ∈ disk fr')).
Qed.

(** The session [create_post] leaves is the one its [try] block leaves. *)
Lemma create_post_session (file : UploadFile) (caption : string) (user : User)
    (env : UploadEnv) (fr : Frame) :
  session (snd (create_post file caption user env fr))
  = session (snd (create_post_try file caption user env fr)).
Proof.
  unfold create_post. rewrite try_finally_state, create_post_except_state.
  apply create_post_cleanup_session.
Qed.




(** The table of posts changes only through a commit on the store-success
    branch, by the one row built from the request. *)
Lemma create_post_table (file : UploadFile) (caption : string) (user : User)
    (env : UploadEnv) (table : gmap N Post) (files : gset string) :
  let fr := snd (create_post file caption user env (begin_request table files)) in
  posts (session fr) = table
  \/ (exists (res : UploadFileResult) (row : Post),
        upload_result env = Return res
        /\ http_status_code res = 200
        /\ db_commit (db env) = None
        /\ table !! db_new_id (db env) = None
        /\ user_id row = user_ident user
        /\ posts (session fr) = <[db_new_id (db env) := row]> table).
Proof.
  simpl. rewrite create_post_session. run_upload.
  destruct (filename file) as [fname|]; simpl; [|by left].
  destruct (tmp_create env); simpl; [by left|].
  case_bool_decide; simpl; [by left|].
  destruct (copy_error env); simpl; [by left|].
  destruct (open_error env); simpl; [by left|].
  destruct (upload_result env) as [res|e]; simpl; [|by left].
  destruct (Z.eqb_spec (http_status_code res) 200); simpl; [|by left].
  destruct (content_type file) as [ct|]; simpl; [|by left].
  destruct (db_commit (db env)); simpl; [by left|].
  destruct (table !! db_new_id (db env)) eqn:Hrow; simpl; [by left|].
  right.
  exists res, (flush (db_new_id (db env)) (db_now (db env))
                 {| new_user_id := user_ident user;
                    new_caption := caption;
                    new_url := result_url res;
                    new_file_type := if String.prefix "video/" ct then "video" else "image";
                    new_file_name := result_name res |}).
  destruct (db_refresh (db env)); simpl; [done|].
  by rewrite lookup_insert_eq.
Qed.

(** C3, as amended: an upload of a file with a name and a declared content
    type, during which staging, transmission and the database's commit and
    refresh succeed and the store reports status 200, is answered with status
    200 (the route declares no status of its own) and the created Post as
    body. *)
Theorem create_post_success_answers_200 (file : UploadFile) (caption : string)
    (user : User) (env : UploadEnv) (table : gmap N Post) (files : gset string)
    (name ct : string) (res : UploadFileResult) :
  filename file = Some name ->
  content_type file = Some ct ->
  tmp_create env = None ->
  temp_name env (snd (splitext name)) ∉ files ->
  copy_error env = None ->
  open_error env = None ->
  upload_result env = Return res ->
  http_status_code res = 200 ->
  db_commit (db env) = None ->
  table !! db_new_id (db env) = None ->
  db_refresh (db env) = None ->
  let request := create_post file caption user env (begin_request table files) in
  let post :=
    flush (db_new_id (db env)) (db_now (db env))
      {| new_user_id := user_ident user;
         new_caption := caption;
         new_url := result_url res;
         new_file_type := if String.prefix "video/" ct then "video" else "image";
         new_file_name := result_name res |} in
  respond upload_route (fst request) = {| status := 200; body := inl post |}
  /\ posts (session (snd request)) = <[db_new_id (db env) := post]> table.
Proof.
  intros Hname Hct Hcreate Hfresh Hcopy Hopen Hres Hok Hcommit Hrow Hrefresh. simpl.
  rewrite create_post_outcome, create_post_session. run_upload.
  rewrite Hname. simpl. rewrite Hcreate. simpl.
  rewrite bool_decide_eq_false_2 by done. simpl.
  rewrite Hcopy. simpl. rewrite Hopen. simpl. rewrite Hres. simpl.
  rewrite Hok. simpl. rewrite Hct. simpl. rewrite Hcommit. simpl.
  rewrite Hrow. simpl. rewrite Hrefresh. simpl.
  by rewrite lookup_insert_eq.
Qed.

Lemma create_post_success_answers_200_witness :
  let request :=
    create_post Sample.cat_png "hi" Sample.alice
      (Sample.store_answers 200 (Sample.quiet_db 7 100)) (begin_request ∅ ∅) in
  let post :=
    flush 7%N 100
      {| new_user_id := 1%N;
         new_caption := "hi";
         new_url := "https://ik.example.org/cat_Zq1.png";
         new_file_type := if String.prefix "video/" "image/png" then "video" else "image";
         new_file_name := "cat_Zq1.png" |} in
  respond upload_route (fst request) = {| status := 200; body := inl post |}
  /\ posts (session (snd request)) = <[7%N := post]> ∅.
Proof.
  apply (create_post_success_answers_200 Sample.cat_png "hi" Sample.alice
           (Sample.store_answers 200 (Sample.quiet_db 7 100)) ∅ ∅
           "cat.png" "image/png"
           {| http_status_code := 200;
              result_url := "https://ik.example.org/cat_Zq1.png";
              result_name := "cat_Zq1.png" |});
    try reflexivity.
  apply not_elem_of_empty.
Defined.

(** C3, as stated, fails: the upload of [cat.png] by alice, during which
    nothing fails and the store reports 200, returns the created Post, and
    the response carries status 200, not 201. *)
Lemma upload_success_is_not_201 :
  let env := Sample.store_answers 200 (Sample.quiet_db 7 100) in
  let request := create_post Sample.cat_png "hi" Sample.alice env (begin_request ∅ ∅) in
  upload_result env
  = Return {| http_status_code := 200;
              result_url := "https://ik.example.org/cat_Zq1.png";
              result_name := "cat_Zq1.png" |}
  /\ fst request = Return Sample.cat_post
  /\ route_status_code upload_route = None
  /\ status (respond upload_route (fst request)) = 200
  /\ status (respond upload_route (fst request)) <> 201.
Proof. vm_compute. split_and!; done. Qed.

(** The three ways out of [create_post] on sample requests: the upload
    succeeds, the store reports a non-success status, a step raises.  Each
    leaves the disk empty as it found it. *)
Example create_post_exit_paths :
  let ok := create_post Sample.cat_png "hi" Sample.alice
              (Sample.store_answers 200 (Sample.quiet_db 7 100)) (begin_request ∅ ∅) in
  let refused := create_post Sample.cat_png "hi" Sample.alice
                   (Sample.store_answers 503 (Sample.quiet_db 7 100)) (begin_request ∅ ∅) in
  let nameless := create_post {| filename := None; content_type := Some "image/png" |}
                    "hi" Sample.alice
                    (Sample.store_answers 200 (Sample.quiet_db 7 100)) (begin_request ∅ ∅) in
  fst ok = Return Sample.cat_post
  /\ created (snd ok) = ["/tmp/tmpk3v9x_2a.png"]
  /\ status (respond upload_route (fst refused)) = 500
  /\ created (snd refused) = ["/tmp/tmpk3v9x_2a.png"]
  /\ status (respond upload_route (fst nameless)) = 500
  /\ created (snd nameless) = []
  /\ disk (snd ok) = ∅ /\ disk (snd refused) = ∅ /\ disk (snd nameless) = ∅.
Proof. vm_compute. split_and!; done. Qed.

End Upload.

(** * Further properties of the handlers *)

(** ** Tables and listings *)

Section Tables.

(** Every listed row is a row of the table. *)
Lemma select_posts_newest_first_sound (s : Session) (row : Post) :
  row ∈ select_posts_newest_first s -> exists k : N, posts s !! k = Some row.
Proof.
  unfold select_posts_newest_first. rewrite order_by_created_at_desc_perm.
  intros ([k row'] & -> & Hin)%list_elem_of_fmap.
  exists k. by apply elem_of_map_to_list.
Qed.

Lemma keyed_by_id_lookup (table : gmap N Post) (k : N) (row : Post) :
  keyed_by_id table -> table !! k = Some row -> id row = k.
Proof. intros Hkeyed Hrow. by apply (Hkeyed k row). Qed.

Lemma keyed_by_id_delete (table : gmap N Post) (k : N) :
  keyed_by_id table -> keyed_by_id (delete k table).
Proof. apply map_Forall_delete. Qed.

Lemma keyed_by_id_insert (table : gmap N Post) (k : N) (row : Post) :
  id row = k -> keyed_by_id table -> keyed_by_id (<[k := row]> table).
Proof. intros Hid Hkeyed. by apply map_Forall_insert_2. Qed.

(** Listing a table with one more row: the listing of the table, and the
    row. *)
Lemma select_posts_newest_first_insert (table : gmap N Post) (k : N) (row : Post) :
  table !! k = None ->
  select_posts_newest_first (open_session (<[k := row]> table))
  ≡ₚ row :: select_posts_newest_first (open_session table).
Proof.
  intros Hfresh. unfold select_posts_newest_first. simpl.
  rewrite !order_by_created_at_desc_perm.
  by rewrite map_to_list_insert.
Qed.

(** A row strictly newer than every other row heads the listing. *)
Lemma newest_row_is_listed_first (s : Session) (row : Post) :
  row ∈ select_posts_newest_first s ->
  (forall other : Post,
      other ∈ select_posts_newest_first s ->
      other = row \/ created_at other < created_at row) ->
  head (select_posts_newest_first s) = Some row.
Proof.
  intros Hin Hnewest.
  pose proof (order_by_created_at_desc_sorted (snd <$> map_to_list (posts s))) as Hsorted.
  fold (select_posts_newest_first s) in Hsorted.
  destruct (select_posts_newest_first s) as [|first rest]; [by apply elem_of_nil in Hin|].
  simpl. f_equal.
  destruct (Hnewest first (list_elem_of_here _ _)) as [|Holder]; [done|exfalso].
  apply elem_of_cons in Hin as [->|Hin]; [lia|].
  apply StronglySorted_inv in Hsorted as [_ Hfirst].
  rewrite Forall_forall in Hfirst. specialize (Hfirst row Hin).
  unfold newer_first in Hfirst. lia.
Qed.

Lemma head_post_details (caller : User) (rows : list Post) :
  head (post_details caller <$> rows) = post_details caller <$> head rows.
Proof. by destruct rows. Qed.

End Tables.

(** ** Deleting, case by case *)

Section DeleteCases.

Variable uuid_UUID : string -> outcome UUID.

(** The two ways a delete request ends: the post exists, the caller owns it
    and the row is deleted; or the handler raises a 500 and the session is
    the one the request began with. *)
Lemma delete_post_by_id_cases (post_id : string) (env : DbEnv) (user : User)
    (table : gmap N Post) :
  let request := delete_post_by_id uuid_UUID post_id env user (open_session table) in
  (exists (u : UUID) (post : Post),
      uuid_UUID post_id = Return u
      /\ table !! u = Some post
      /\ user_id post = user_ident user
      /\ request = (Return {| success := true; message := "Post deleted";
                              post_id := str_uuid (id post) |},
                    open_session (delete (id post) table)))
  \/ (exists detail : string,
        request = (Raise (HTTPException 500 detail), open_session table)).
Proof.
  unfold delete_post_by_id, try_except, select_post_by_id, session_delete,
    session_commit, may_raise, call, bind, ret, raise, get, modify; simpl.
  destruct (uuid_UUID post_id) as [u|e]; [|by right; eexists].
  destruct (db_execute env); simpl; [by right; eexists|].
  destruct (table !! u) as [post|] eqn:Hrow; [|by right; eexists].
  case_bool_decide as Howner; [by right; eexists|]. simpl.
  destruct (db_commit env); [by right; eexists|].
  left. exists u, post. split_and!; try done.
Qed.

(** X1: when the caller owns the post and the database does not fail, the
    delete request is answered with status 200 and the post's identifier;
    the row is gone from the table, no row of that identifier is listed by a
    later feed, and every other row is untouched. *)
Theorem delete_by_owner_removes_post (post_id : string) (u : UUID) (env : DbEnv)
    (user : User) (table : gmap N Post) (post : Post) :
  uuid_UUID post_id = Return u ->
  db_execute env = None ->
  db_commit env = None ->
  keyed_by_id table ->
  table !! u = Some post ->
  user_id post = user_ident user ->
  let request := delete_post_by_id uuid_UUID post_id env user (open_session table) in
  respond delete_route (fst request)
  = {| status := 200;
       body := inl {| success := true; message := "Post deleted";
                      post_id := str_uuid u |} |}
  /\ posts (snd request) !! u = None
  /\ Forall (fun row => id row <> u) (select_posts_newest_first (snd request))
  /\ (forall k : N, k <> u -> posts (snd request) !! k = table !! k).
Proof.
  intros Hu Hexecute Hcommit Hkeyed Hrow Howner. simpl.
  rewrite (delete_own_post uuid_UUID post_id u env user table post) by done.
  rewrite (keyed_by_id_lookup table u post) by done. simpl.
  split_and!.
  - done.
  - apply lookup_delete_eq.
  - apply Forall_forall. intros row [k Hk]%select_posts_newest_first_sound.
    simpl in Hk. apply lookup_delete_Some in Hk as [Hne Hk].
    by rewrite (keyed_by_id_lookup table k row).
  - intros k Hne. by apply lookup_delete_ne.
Qed.

(** X2: a delete request is answered with status 200 only when the
    identifier denotes a post of the table that the caller owns, and then
    exactly that row is deleted; every other request is answered with status
    500 and leaves the table as it was. *)
Theorem delete_post_by_id_answer (post_id : string) (env : DbEnv) (user : User)
    (table : gmap N Post) :
  let request := delete_post_by_id uuid_UUID post_id env user (open_session table) in
  (exists (u : UUID) (post : Post),
      uuid_UUID post_id = Return u
      /\ table !! u = Some post
      /\ user_id post = user_ident user
      /\ respond delete_route (fst request)
         = {| status := 200;
              body := inl {| success := true; message := "Post deleted";
                             post_id := str_uuid (id post) |} |}
      /\ posts (snd request) = delete (id post) table)
  \/ (status (respond delete_route (fst request)) = 500
      /\ posts (snd request) = table).
Proof.
  destruct (delete_post_by_id_cases post_id env user table)
    as [(u & post & Hu & Hrow & Howner & Hrun)|(detail & Hrun)]; simpl; rewrite Hrun.
  - left. by exists u, post.
  - by right.
Qed.

(** X3: no delete request removes or alters a post of another user: a row
    whose owner is not the caller is in the table after the request,
    whatever the identifier asked for and whatever the database does. *)
Theorem delete_spares_other_users_posts (post_id : string) (env : DbEnv)
    (user : User) (table : gmap N Post) (k : N) (row : Post) :
  keyed_by_id table ->
  table !! k = Some row ->
  user_id row <> user_ident user ->
  posts (snd (delete_post_by_id uuid_UUID post_id env user (open_session table))) !! k
  = Some row.
Proof.
  intros Hkeyed Hrow Hother.
  destruct (delete_post_by_id_cases post_id env user table)
    as [(u & post & Hu & Hpost & Howner & Hrun)|(detail & Hrun)]; simpl in Hrun;
    rewrite Hrun; simpl; [|done].
  rewrite lookup_delete_ne; [done|].
  rewrite (keyed_by_id_lookup table u post) by done.
  intros ->. congruence.
Qed.

(** X4: an identifier that [uuid.UUID] rejects is answered with status 500;
    the detail is ["Error deleting post: "] followed by the text of the
    exception, and the session is left as it was. *)
Theorem delete_malformed_identifier (post_id : string) (e : exn) (env : DbEnv)
    (user : User) (s : Session) :
  uuid_UUID post_id = Raise e ->
  let request := delete_post_by_id uuid_UUID post_id env user s in
  respond delete_route (fst request)
  = {| status := 500; body := inr ("Error deleting post: " +:+ str e) |}
  /\ snd request = s.
Proof.
  intros Hu. unfold delete_post_by_id, try_except, call, bind, raise. simpl.
  by rewrite Hu.
Qed.

(** X5: once the owner has deleted a post, the same request again is
    answered with status 500 and changes nothing. *)
Theorem delete_twice (post_id : string) (u : UUID) (env : DbEnv)
    (user : User) (table : gmap N Post) (post : Post) :
  uuid_UUID post_id = Return u ->
  db_execute env = None ->
  db_commit env = None ->
  keyed_by_id table ->
  table !! u = Some post ->
  user_id post = user_ident user ->
  let first := delete_post_by_id uuid_UUID post_id env user (open_session table) in
  let second := delete_post_by_id uuid_UUID post_id env user (snd first) in
  status (respond delete_route (fst first)) = 200
  /\ status (respond delete_route (fst second)) = 500
  /\ snd second = snd first.
Proof.
  intros Hu Hexecute Hcommit Hkeyed Hrow Howner. simpl.
  rewrite (delete_own_post uuid_UUID post_id u env user table post) by done.
  rewrite (keyed_by_id_lookup table u post) by done. simpl.
  rewrite (delete_missing_post uuid_UUID post_id u env user) by
    (try done; apply lookup_delete_eq).
  done.
Qed.

End DeleteCases.

Lemma delete_by_owner_removes_post_witness :
  let request :=
    delete_post_by_id Sample.uuid_of_hex "00000000-0000-0000-0000-000000000007"
      (Sample.quiet_db 0 0) Sample.alice (open_session Sample.two_posts) in
  respond delete_route (fst request)
  = {| status := 200;
       body := inl {| success := true; message := "Post deleted";
                      post_id := str_uuid 7%N |} |}
  /\ posts (snd request) !! 7%N = None
  /\ Forall (fun row => id row <> 7%N) (select_posts_newest_first (snd request))
  /\ (forall k : N, k <> 7%N -> posts (snd request) !! k = Sample.two_posts !! k).
Proof.
  apply (delete_by_owner_removes_post Sample.uuid_of_hex
           "00000000-0000-0000-0000-000000000007" 7%N (Sample.quiet_db 0 0)
           Sample.alice Sample.two_posts Sample.cat_post).
  - vm_compute. reflexivity.
  - reflexivity.
  - reflexivity.
  - apply keyed_by_id_insert; [reflexivity|].
    apply map_Forall_singleton. reflexivity.
  - vm_compute. reflexivity.
  - reflexivity.
Defined.

Lemma delete_spares_other_users_posts_witness :
  posts (snd (delete_post_by_id Sample.uuid_of_hex
                "00000000-0000-0000-0000-000000000009"
                (Sample.quiet_db 0 0) Sample.alice (open_session Sample.two_posts)))
    !! 9%N
  = Some Sample.clip_post.
Proof.
  apply (delete_spares_other_users_posts Sample.uuid_of_hex
           "00000000-0000-0000-0000-000000000009" (Sample.quiet_db 0 0)
           Sample.alice Sample.two_posts 9%N Sample.clip_post).
  - apply keyed_by_id_insert; [reflexivity|].
    apply map_Forall_singleton. reflexivity.
  - vm_compute. reflexivity.
  - vm_compute. discriminate.
Defined.

Lemma delete_malformed_identifier_witness :
  let request :=
    delete_post_by_id Sample.uuid_of_hex "not-a-uuid" (Sample.quiet_db 0 0)
      Sample.alice (open_session Sample.one_post) in
  respond delete_route (fst request)
  = {| status := 500;
       body := inr ("Error deleting post: "
                    +:+ str (PyError "ValueError" "badly formed hexadecimal UUID string")) |}
  /\ snd request = open_session Sample.one_post.
Proof.
  apply (delete_malformed_identifier Sample.uuid_of_hex "not-a-uuid"
           (PyError "ValueError" "badly formed hexadecimal UUID string")).
  vm_compute. reflexivity.
Defined.

Lemma delete_twice_witness :
  let first :=
    delete_post_by_id Sample.uuid_of_hex "00000000-0000-0000-0000-000000000007"
      (Sample.quiet_db 0 0) Sample.alice (open_session Sample.one_post) in
  let second :=
    delete_post_by_id Sample.uuid_of_hex "00000000-0000-0000-0000-000000000007"
      (Sample.quiet_db 0 0) Sample.alice (snd first) in
  status (respond delete_route (fst first)) = 200
  /\ status (respond delete_route (fst second)) = 500
  /\ snd second = snd first.
Proof.
  apply (delete_twice Sample.uuid_of_hex "00000000-0000-0000-0000-000000000007"
           7%N (Sample.quiet_db 0 0) Sample.alice Sample.one_post Sample.cat_post).
  - vm_compute. reflexivity.
  - reflexivity.
  - reflexivity.
  - apply map_Forall_singleton. reflexivity.
  - vm_compute. reflexivity.
  - reflexivity.
Defined.

(** ** Uploading, case by case *)

Section UploadCases.

Ltac run_upload_try :=
  unfold create_post_try, filename_suffix, NamedTemporaryFile, content_type_is_video,
    in_session, zoom, session_add, session_commit, session_refresh,
    set_temp_file_path, create_file, may_raise, call, bind, ret, raise, get, modify;
  simpl.

(** The [try] block of an upload that commits: the row is in the table,
    whatever the refresh does next. *)
Lemma create_post_try_commits (file : UploadFile) (caption : string) (user : User)
    (env : UploadEnv) (table : gmap N Post) (files : gset string)
    (name ct : string) (res : UploadFileResult) :
  upload_commits file env table files name ct res ->
  let run := create_post_try file caption user env (begin_request table files) in
  session (snd run)
  = open_session (<[db_new_id (db env) := created_post user caption ct res env]> table)
  /\ fst run = match db_refresh (db env) with
               | Some e => Raise e
               | None => Return (created_post user caption ct res env)
               end.
Proof.
  intros (Hname & Hct & Hcreate & Hfresh & Hcopy & Hopen & Hres & Hok & Hcommit & Hrow).
  run_upload_try.
  rewrite Hname. simpl. rewrite Hcreate. simpl.
  rewrite bool_decide_eq_false_2 by done. simpl.
  rewrite Hcopy. simpl. rewrite Hopen. simpl. rewrite Hres. simpl.
  rewrite Hok. simpl. rewrite Hct. simpl. rewrite Hcommit. simpl.
  rewrite Hrow. simpl.
  destruct (db_refresh (db env)); simpl; [done|].
  by rewrite lookup_insert_eq.
Qed.

(** Every way through the [try] block of [create_post]: it returns the
    created row, which the commit has inserted; or it raises before any
    commit has succeeded; or the commit has succeeded and the refresh
    raises. *)
Lemma create_post_try_cases (file : UploadFile) (caption : string) (user : User)
    (env : UploadEnv) (table : gmap N Post) (files : gset string) :
  let run := create_post_try file caption user env (begin_request table files) in
  (exists e : exn, fst run = Raise e /\ session (snd run) = open_session table)
  \/ (exists (name ct : string) (res : UploadFileResult),
        upload_commits file env table files name ct res).
Proof.
  run_upload_try.
  destruct (filename file) as [name|] eqn:Hname; simpl; [|left; by eexists].
  destruct (tmp_create env) eqn:Hcreate; simpl; [left; by eexists|].
  case_bool_decide as Hfresh; simpl; [left; by eexists|].
  destruct (copy_error env) eqn:Hcopy; simpl; [left; by eexists|].
  destruct (open_error env) eqn:Hopen; simpl; [left; by eexists|].
  destruct (upload_result env) as [res|e] eqn:Hres; simpl; [|left; by eexists].
  destruct (Z.eqb_spec (http_status_code res) 200) as [Hok|Hko]; simpl;
    [|left; by eexists].
  destruct (content_type file) as [ct|] eqn:Hct; simpl; [|left; by eexists].
  destruct (db_commit (db env)) eqn:Hcommit; simpl; [left; by eexists|].
  destruct (table !! db_new_id (db env)) eqn:Hrow; simpl; [left; by eexists|].
  right. exists name, ct, res. by repeat split.
Qed.


(** X7: an upload never removes or alters an existing post, and adds at most
    one row: the table before the request is contained in the table after
    it, which has at most one row more, and a row that was not there before
    is stored under the new identifier and belongs to the caller. *)
Theorem create_post_keeps_existing_rows (file : UploadFile) (caption : string)
    (user : User) (env : UploadEnv) (table : gmap N Post) (files : gset string) :
  let after := posts (session (snd (create_post file caption user env
                                      (begin_request table files)))) in
  table ⊆ after
  /\ (size after <= S (size table))%nat
  /\ map_Forall (fun k row =>
                   table !! k = Some row
                   \/ (k = db_new_id (db env) /\ id row = k
                       /\ user_id row = user_ident user)) after.
Proof.
  simpl. rewrite create_post_session.
  destruct (create_post_try_cases file caption user env table files)
    as [(e & _ & Hsession)|(name & ct & res & Hcommits)].
  - simpl in Hsession. rewrite Hsession. simpl. split_and!; [done|lia|].
    intros k row Hk. by left.
  - destruct (create_post_try_commits file caption user env table files name ct res Hcommits)
      as [Hsession _]. simpl in Hsession. rewrite Hsession. simpl.
    destruct Hcommits as (_ & _ & _ & _ & _ & _ & _ & _ & _ & Hrow).
    split_and!.
    + by apply insert_subseteq.
    + by rewrite map_size_insert_None.
    + intros k row Hk. apply lookup_insert_Some in Hk as [[<- <-]|[_ Hk]]; [by right|by left].
Qed.

(** X8: an upload whose file declares no content type, or whose commit fails
    (the database raises, or the generated identifier is taken), is answered
    with status 500 and inserts no row, whatever the store answered. *)
Theorem upload_without_commit_inserts_no_row (file : UploadFile) (caption : string)
    (user : User) (env : UploadEnv) (table : gmap N Post) (files : gset string) :
  content_type file = None
  \/ db_commit (db env) <> None
  \/ table !! db_new_id (db env) <> None ->
  let request := create_post file caption user env (begin_request table files) in
  status (respond upload_route (fst request)) = 500
  /\ posts (session (snd request)) = table.
Proof.
  intros Hfails. simpl.
  rewrite create_post_outcome, create_post_session. unfold try_except, raise.
  destruct (create_post_try_cases file caption user env table files)
    as [(e & Hraise & Hsession)|(name & ct & res & Hcommits)].
  - simpl in *. destruct (create_post_try _ _ _ _ _) as [o fr]. simpl in *.
    by rewrite Hraise, Hsession.
  - destruct Hcommits as (_ & Hct & _ & _ & _ & _ & _ & _ & Hcommit & Hrow).
    destruct Hfails as [?|[?|?]]; congruence.
Qed.

(** X9: when the commit has succeeded and the refresh that follows raises,
    the request is answered with status 500, the detail naming the
    exception, although the created row is in the table. *)
Theorem upload_refresh_failure_keeps_row (file : UploadFile) (caption : string)
    (user : User) (env : UploadEnv) (table : gmap N Post) (files : gset string)
    (name ct : string) (res : UploadFileResult) (e : exn) :
  upload_commits file env table files name ct res ->
  db_refresh (db env) = Some e ->
  let request := create_post file caption user env (begin_request table files) in
  respond upload_route (fst request)
  = {| status := 500; body := inr ("File upload failed: " +:+ str e) |}
  /\ posts (session (snd request))
     = <[db_new_id (db env) := created_post user caption ct res env]> table.
Proof.
  intros Hcommits Hrefresh. simpl.
  rewrite create_post_outcome, create_post_session. unfold try_except, raise.
  destruct (create_post_try_commits file caption user env table files name ct res Hcommits)
    as [Hsession Hrun]. simpl in *.
  destruct (create_post_try _ _ _ _ _) as [o fr]. simpl in *.
  by rewrite Hsession, Hrun, Hrefresh.
Qed.




(** X11: after a successful upload, the feed of any caller is the feed
    before the upload and one new entry, the entry of the created post; that
    entry is marked as owned exactly for the uploader, and when the created
    post is strictly newer than every post of the table it is the first
    entry of the feed. *)
Theorem feed_after_upload (file : UploadFile) (caption : string) (user : User)
    (env : UploadEnv) (table : gmap N Post) (files : gset string)
    (name ct : string) (res : UploadFileResult) (fenv : DbEnv) (caller : User) :
  upload_commits file env table files name ct res ->
  db_refresh (db env) = None ->
  db_execute fenv = None ->
  let request := create_post file caption user env (begin_request table files) in
  let entry := post_details caller (created_post user caption ct res env) in
  exists before after : list PostDetails,
    fst (get_feeds fenv caller (open_session table)) = Return before
    /\ fst (get_feeds fenv caller (session (snd request))) = Return after
    /\ after ≡ₚ entry :: before
    /\ (d_is_owner entry = true <-> user_ident user = user_ident caller)
    /\ ((forall k row, table !! k = Some row -> created_at row < db_now (db env)) ->
        head after = Some entry).
Proof.
  intros Hcommits Hrefresh Hexecute. cbv zeta.
  rewrite create_post_session.
  destruct (create_post_try_commits file caption user env table files name ct res Hcommits)
    as [Hsession _]. cbv zeta in Hsession. rewrite Hsession.
  destruct Hcommits as (_ & _ & _ & _ & _ & _ & _ & _ & _ & Hrow).
  set (post := created_post user caption ct res env).
  eexists _, _. rewrite !get_feeds_run by done. split_and!; [done|done| | |].
  - rewrite (select_posts_newest_first_insert table _ post) by done.
    by rewrite fmap_cons.
  - simpl. rewrite bool_decide_eq_true. done.
  - intros Hnewest. rewrite head_post_details.
    apply fmap_Some_2.
    apply newest_row_is_listed_first.
    + rewrite (select_posts_newest_first_insert table _ post) by done.
      apply list_elem_of_here.
    + intros other Hother.
      rewrite (select_posts_newest_first_insert table _ post) in Hother by done.
      apply elem_of_cons in Hother as [->|Hother]; [by left|right].
      apply select_posts_newest_first_sound in Hother as [k Hk].
      apply (Hnewest k other Hk).
Qed.

End UploadCases.

(** ** Handlers in sequence *)

Section Sequences.

Variable uuid_UUID : string -> outcome UUID.

(** X12: a successful upload followed by the uploader's delete request for
    the identifier of the created post is answered with status 200 and
    leaves the table of posts as it was before the upload. *)
Theorem upload_then_delete_restores_table (file : UploadFile) (caption : string)
    (user : User) (env : UploadEnv) (table : gmap N Post) (files : gset string)
    (name ct : string) (res : UploadFileResult) (denv : DbEnv) :
  upload_commits file env table files name ct res ->
  db_refresh (db env) = None ->
  uuid_UUID (str_uuid (db_new_id (db env))) = Return (db_new_id (db env)) ->
  db_execute denv = None ->
  db_commit denv = None ->
  let upload := create_post file caption user env (begin_request table files) in
  let post := created_post user caption ct res env in
  let delete := delete_post_by_id uuid_UUID (str_uuid (id post)) denv user
                  (session (snd upload)) in
  fst upload = Return post
  /\ respond delete_route (fst delete)
     = {| status := 200;
          body := inl {| success := true; message := "Post deleted";
                         post_id := str_uuid (id post) |} |}
  /\ posts (snd delete) = table.
Proof.
  intros Hcommits Hrefresh Hparse Hexecute Hcommit. cbv zeta.
  rewrite create_post_outcome, create_post_session.
  destruct (create_post_try_commits file caption user env table files name ct res Hcommits)
    as [Hsession Hrun]. cbv zeta in Hsession, Hrun.
  destruct Hcommits as (_ & _ & _ & _ & _ & _ & _ & _ & _ & Hrow).
  unfold try_except.
  destruct (create_post_try _ _ _ _ _) as [o fr]. simpl in Hsession, Hrun.
  rewrite Hrefresh in Hrun. subst o. simpl. rewrite Hsession.
  rewrite (delete_own_post uuid_UUID _ (db_new_id (db env)) denv user _
             (created_post user caption ct res env));
    [|done|done|done|apply lookup_insert_eq|done].
  simpl. split_and!; [done|done|].
  by apply delete_insert_id.
Qed.

End Sequences.

(** ** The further properties on the sample requests *)

Lemma upload_without_commit_inserts_no_row_witness :
  let request :=
    create_post {| filename := Some "cat.png"; content_type := None |} "hi" Sample.alice
      (Sample.store_answers 200 (Sample.quiet_db 9 250))
      (begin_request Sample.one_post ∅) in
  status (respond upload_route (fst request)) = 500
  /\ posts (session (snd request)) = Sample.one_post.
Proof.
  apply (upload_without_commit_inserts_no_row
           {| filename := Some "cat.png"; content_type := None |} "hi" Sample.alice
           (Sample.store_answers 200 (Sample.quiet_db 9 250)) Sample.one_post ∅).
  left. reflexivity.
Defined.

Lemma upload_refresh_failure_keeps_row_witness :
  let env :=
    Sample.store_answers 200
      {| db_new_id := 9%N; db_now := 250; db_execute := None; db_commit := None;
         db_refresh := Some (PyError "OperationalError" "server closed the connection") |} in
  let request :=
    create_post Sample.clip_mp4 "look" Sample.bob env (begin_request Sample.one_post ∅) in
  respond upload_route (fst request)
  = {| status := 500;
       body := inr ("File upload failed: "
                    +:+ str (PyError "OperationalError" "server closed the connection")) |}
  /\ posts (session (snd request))
     = <[9%N := created_post Sample.bob "look" "video/mp4"
                  {| http_status_code := 200;
                     result_url := "https://ik.example.org/cat_Zq1.png";
                     result_name := "cat_Zq1.png" |} env]> Sample.one_post.
Proof.
  apply (upload_refresh_failure_keeps_row Sample.clip_mp4 "look" Sample.bob
           (Sample.store_answers 200
              {| db_new_id := 9%N; db_now := 250; db_execute := None; db_commit := None;
                 db_refresh := Some (PyError "OperationalError"
                                       "server closed the connection") |})
           Sample.one_post ∅ "clip.mp4" "video/mp4"
           {| http_status_code := 200;
              result_url := "https://ik.example.org/cat_Zq1.png";
              result_name := "cat_Zq1.png" |}).
  - unfold upload_commits. split_and!; try reflexivity.
    apply not_elem_of_empty.
  - reflexivity.
Defined.

Lemma feed_after_upload_witness :
  let env := Sample.store_answers 200 (Sample.quiet_db 9 250) in
  let request :=
    create_post Sample.clip_mp4 "look" Sample.bob env (begin_request Sample.one_post ∅) in
  let entry :=
    post_details Sample.alice
      (created_post Sample.bob "look" "video/mp4"
         {| http_status_code := 200;
            result_url := "https://ik.example.org/cat_Zq1.png";
            result_name := "cat_Zq1.png" |} env) in
  exists before after : list PostDetails,
    fst (get_feeds (Sample.quiet_db 0 0) Sample.alice (open_session Sample.one_post))
    = Return before
    /\ fst (get_feeds (Sample.quiet_db 0 0) Sample.alice (session (snd request)))
       = Return after
    /\ after ≡ₚ entry :: before
    /\ (d_is_owner entry = true <-> user_ident Sample.bob = user_ident Sample.alice)
    /\ ((forall k row, Sample.one_post !! k = Some row -> created_at row < db_now (db env)) ->
        head after = Some entry).
Proof.
  apply (feed_after_upload Sample.clip_mp4 "look" Sample.bob
           (Sample.store_answers 200 (Sample.quiet_db 9 250))
           Sample.one_post ∅ "clip.mp4" "video/mp4"
           {| http_status_code := 200;
              result_url := "https://ik.example.org/cat_Zq1.png";
              result_name := "cat_Zq1.png" |} (Sample.quiet_db 0 0) Sample.alice).
  - unfold upload_commits. split_and!; try reflexivity.
    apply not_elem_of_empty.
  - reflexivity.
  - reflexivity.
Defined.

Lemma upload_then_delete_restores_table_witness :
  let env := Sample.store_answers 200 (Sample.quiet_db 9 250) in
  let upload :=
    create_post Sample.clip_mp4 "look" Sample.bob env (begin_request Sample.one_post ∅) in
  let post :=
    created_post Sample.bob "look" "video/mp4"
      {| http_status_code := 200;
         result_url := "https://ik.example.org/cat_Zq1.png";
         result_name := "cat_Zq1.png" |} env in
  let delete :=
    delete_post_by_id Sample.uuid_of_hex (str_uuid (id post)) (Sample.quiet_db 0 0)
      Sample.bob (session (snd upload)) in
  fst upload = Return post
  /\ respond delete_route (fst delete)
     = {| status := 200;
          body := inl {| success := true; message := "Post deleted";
                         post_id := str_uuid (id post) |} |}
  /\ posts (snd delete) = Sample.one_post.
Proof.
  apply (upload_then_delete_restores_table Sample.uuid_of_hex
           Sample.clip_mp4 "look" Sample.bob
           (Sample.store_answers 200 (Sample.quiet_db 9 250))
           Sample.one_post ∅ "clip.mp4" "video/mp4"
           {| http_status_code := 200;
              result_url := "https://ik.example.org/cat_Zq1.png";
              result_name := "cat_Zq1.png" |} (Sample.quiet_db 0 0)).
  - unfold upload_commits. split_and!; try reflexivity.
    apply not_elem_of_empty.
  - reflexivity.
  - vm_compute. reflexivity.
  - reflexivity.
  - reflexivity.
Defined.
